(** * molecule.provisioner.ansible_playbook: the [DistronodePlaybook] command
    builder and executor.

    The class assembles the argument vector of a [distronode-playbook] run from
    the options of a Molecule configuration and the overrides added through
    [add_cli_arg], runs it as a child process and turns a non-zero return code
    into a process exit.  Python dictionaries are finite maps with string keys,
    the instance is a record that every method takes and returns, and the
    effects of [execute] (log line, sanity check, child process, exit) are
    recorded in a trace. *)

From Stdlib Require Import Ascii String ZArith.
From stdpp Require Import base option list strings gmap fin_maps pretty.

Local Open Scope string_scope.
Local Open Scope Z_scope.

(** ** Python values and truthiness *)

(** The values an option mapping, a CLI override or an environment entry can
    hold. *)
Inductive value : Type :=
  | VNone
  | VBool (b : bool)
  | VInt (n : Z)
  | VStr (s : string)
  | VList (l : list string).

Global Instance value_eq_dec : EqDecision value.
Proof. solve_decision. Defined.

Abbreviation dict := (gmap string value).

(** [bool(v)]: [None], [False], [0], [""] and [[]] are falsy. *)
Definition truthy (v : value) : bool :=
  match v with
  | VNone => false
  | VBool b => b
  | VInt n => negb (n =? 0)
  | VStr s => negb (String.eqb s "")
  | VList l => match l with [] => false | _ :: _ => true end
  end.

(** [bool(d.get(k))]: [dict.get] answers [None] for a key that is absent. *)
Definition truthy_get (o : option value) : bool :=
  match o with
  | Some v => truthy v
  | None => false
  end.

(** [bool(p)] for a path that is a string or [None]. *)
Definition truthy_path (p : option string) : bool :=
  match p with
  | Some s => negb (String.eqb s "")
  | None => false
  end.

(** ** The configuration read by the class *)

(** [config.provisioner]: the attributes [bake] and [__init__] read. *)
Record Provisioner : Type := {
  inventory_directory : value;
  options : dict;
  playbooks_converge : option string;
  provisioner_distronode_args : list string;
  provisioner_env : dict
}.

(** [config]: [verifier_env] is [config.verifier.env] and
    [config_verifier_env] is [config.config["verifier"]["env"]]. *)
Record Config : Type := {
  provisioner : Provisioner;
  verifier_env : dict;
  config_verifier_env : dict;
  distronode_args : list string;
  action : option string;
  scenario_path : string;
  debug : bool
}.

(** ** Helpers of [molecule.util] *)

Module util.

(** Modelled from the spec: [molecule/util.py] is not among the sources.
    [merge_dicts a b] merges two option layers into a new mapping, and "local
    arguments take precedence on key collision": the entries of [b] win. *)
Definition merge_dicts (a b : dict) : dict := b ∪ a.

(** The remaining helpers that [bake] calls are taken as an interface:
    [verbose_flag] derives the verbosity flag from the merged options (it is
    handed the mapping and may change it, so it returns the mapping as well),
    [dict2args] renders a mapping as CLI tokens and [bool2args] renders the
    flag. *)
Class Helpers : Type := {
  flag : Type;
  verbose_flag : dict → flag * dict;
  dict2args : dict → list string;
  bool2args : flag → list string
}.

End util.

(** ** The instance *)

Record DistronodePlaybook : Type := {
  _distronode_command : option (list string);
  _playbook : option string;
  _config : Config;
  _cli : dict;
  _env : dict
}.

(** [__init__(self, playbook, config, verify=False)].  [_env] is the content
    of the mapping the instance refers to; the methods below read and write
    it through the instance only. *)
Definition __init__ (playbook : option string) (config : Config) (verify : bool)
  : DistronodePlaybook :=
  {| _distronode_command := None;
     _playbook := playbook;
     _config := config;
     _cli := ∅;
     _env := if verify
             then util.merge_dicts (verifier_env config) (config_verifier_env config)
             else provisioner_env (provisioner config) |}.

(** [add_cli_arg(self, name, value)] *)
Definition add_cli_arg (name : string) (v : value) (self : DistronodePlaybook)
  : DistronodePlaybook :=
  if truthy v
  then {| _distronode_command := _distronode_command self;
          _playbook := _playbook self;
          _config := _config self;
          _cli := <[name := v]> (_cli self);
          _env := _env self |}
  else self.

(** [add_env_arg(self, name, value)] *)
Definition add_env_arg (name : string) (v : value) (self : DistronodePlaybook)
  : DistronodePlaybook :=
  {| _distronode_command := _distronode_command self;
     _playbook := _playbook self;
     _config := _config self;
     _cli := _cli self;
     _env := <[name := v]> (_env self) |}.

(** [action not in ["create", "destroy"]] *)
Definition lifecycle_action (a : option string) : bool :=
  match a with
  | Some s => String.eqb s "create" || String.eqb s "destroy"
  | None => false
  end.

(** The extra raw arguments of [bake]: both lists of the configuration, or
    nothing for the create and destroy actions. *)
Definition extra_args (config : Config) : list string :=
  if negb (lifecycle_action (action config))
  then provisioner_distronode_args (provisioner config) ++ distronode_args config
  else [].

(** [options.get("become")] guards [del options["become"]], and both run only
    for a playbook that is not the converge playbook. *)
Definition strip_become (playbook converge : option string) (opts : dict) : dict :=
  if decide (playbook ≠ converge)
  then if truthy_get (opts !! "become") then delete "become" opts else opts
  else opts.

Section Bake.

Context `{H : util.Helpers}.

(** The mapping named [options] on line 69, after the inventory override has
    been added. *)
Definition merged_options (self : DistronodePlaybook) : dict :=
  let self := add_cli_arg "inventory"
                (inventory_directory (provisioner (_config self))) self in
  util.merge_dicts (options (provisioner (_config self))) (_cli self).

(** The mapping handed to [dict2args]. *)
Definition baked_options (self : DistronodePlaybook) : dict :=
  strip_become (_playbook self) (playbooks_converge (provisioner (_config self)))
    (util.verbose_flag (merged_options self)).2.

(** [bake(self)] *)
Definition bake (self : DistronodePlaybook) : DistronodePlaybook :=
  match _playbook self with
  | None => self
  | Some playbook =>
    if String.eqb playbook "" then self else
    let self := add_cli_arg "inventory"
                  (inventory_directory (provisioner (_config self))) self in
    let options := util.merge_dicts (options (provisioner (_config self)))
                     (_cli self) in
    let '(verbose_flag, options) := util.verbose_flag options in
    let options := strip_become (_playbook self)
                     (playbooks_converge (provisioner (_config self))) options in
    let distronode_args := extra_args (_config self) in
    {| _distronode_command :=
         Some ("distronode-playbook" :: util.dict2args options
                 ++ util.bool2args verbose_flag
                 ++ distronode_args
                 ++ [playbook]);
       _playbook := _playbook self;
       _config := _config self;
       _cli := _cli self;
       _env := _env self |}
  end.

End Bake.

(** ** Shell quoting ([shlex]) and the child process *)

Module shlex.

Definition dquote : ascii := "034"%char.
Definition squote : ascii := "039"%char.

(** The characters [shlex.quote] leaves alone: ASCII letters, digits, [_]
    and [@%+=:,./-]. *)
Definition safe_char (c : ascii) : bool :=
  let n := Ascii.N_of_ascii c in
  ((48 <=? n) && (n <=? 57) || (65 <=? n) && (n <=? 90)
   || (97 <=? n) && (n <=? 122))%N
  || bool_decide (c ∈ ["_"; "@"; "%"; "+"; "="; ":"; ","; "."; "/"; "-"]%char).

Fixpoint all_safe (s : string) : bool :=
  match s with
  | EmptyString => true
  | String c s => safe_char c && all_safe s
  end.

(** [s.replace(squote, squote dquote squote dquote squote)]: every single
    quote closes the quoted text, adds a double-quoted single quote and
    opens the quoted text again. *)
Fixpoint escape_squotes (s : string) : string :=
  match s with
  | EmptyString => EmptyString
  | String c s =>
    if Ascii.eqb c squote
    then String squote (String dquote (String squote (String dquote
           (String squote (escape_squotes s)))))
    else String c (escape_squotes s)
  end.

(** [shlex.quote(s)] *)
Definition quote (s : string) : string :=
  if String.eqb s "" then String squote (String squote EmptyString)
  else if all_safe s then s
  else String squote (escape_squotes s +:+ String squote EmptyString).

(** [shlex.join(split_command)] *)
Definition join (split_command : list string) : string :=
  String.concat " " (quote <$> split_command).

End shlex.

(** [subprocess.CompletedProcess], as far as [execute] reads it. *)
Record CompletedProcess : Type := {
  args : list string;
  returncode : Z;
  stdout : string
}.

(** What lies outside the program: the child process, the driver's sanity
    checks (only the warnings they raise are visible here) and
    [rich.markup.escape]. *)
Class Runtime : Type := {
  escape : string → string;
  sanity_checks : Config → list string;
  spawn : list string → dict → string → Z * string * list string
}.

(** One entry per effect of [execute], in program order. *)
Inductive event : Type :=
  | LogWarning (msg : string)
  | SanityChecks
  | RunCommand (cmd : list string) (env : dict) (debug : bool) (cwd : string).

(** How a call of [execute] ends: it returns a value ([None] or the captured
    output), the process exits, or Python raises. *)
Inductive outcome : Type :=
  | Return (v : option string)
  | SysExit (msg : string) (code : Z) (warns : list string)
  | Raise.

Section Execute.

Context `{H : util.Helpers} `{R : Runtime}.

(** Modelled from the spec: [util.run_command] is not among the sources.  It
    runs the argument vector as a child process with the given environment
    and working directory and answers the execution result: "exit code,
    captured standard output, the original argument vector".  The second
    component holds the warnings raised during the call. *)
Definition run_command (cmd : list string) (env : dict) (debug : bool)
    (cwd : string) : CompletedProcess * list string :=
  let '(rc, out, warns) := spawn cmd env cwd in
  ({| args := cmd; returncode := rc; stdout := out |}, warns).

(** The first argument of [util.sysexit_with_message] in [execute]. *)
Definition exit_message (result : CompletedProcess) : string :=
  "Distronode return code was " +:+ pretty (returncode result)
    +:+ ", command was: [dim]" +:+ escape (shlex.join (args result))
    +:+ "[/dim]".

(** [str(action)] inside the [%s] of the log line. *)
Definition str_action (a : option string) : string :=
  match a with
  | Some s => s
  | None => "None"
  end.

(** Lines 103-104: [bake] runs only while no command has been baked. *)
Definition ensure_baked (self : DistronodePlaybook) : DistronodePlaybook :=
  match _distronode_command self with
  | None => bake self
  | Some _ => self
  end.

(** [execute(self, action_args=None)].

    Modelled from the spec: [util.sysexit_with_message(msg, code, warns)] is
    not among the sources; it prints the message and terminates the process
    with the given code, which is the outcome [SysExit msg code warns].
    A command that is still [None] where [run_command] needs it would make
    Python raise; [execute_never_raises] shows the case does not arise. *)
Definition execute (self : DistronodePlaybook)
    (action_args : option (list string))
  : DistronodePlaybook * list event * outcome :=
  let self := ensure_baked self in
  if negb (truthy_path (_playbook self)) then
    (self,
     [LogWarning ("Skipping, " +:+ str_action (action (_config self))
                    +:+ " action has no playbook.")],
     Return None)
  else
    match _distronode_command self with
    | None => (self, [SanityChecks], Raise)
    | Some command =>
      let warns0 := sanity_checks (_config self) in
      let cwd := scenario_path (_config self) in
      let '(result, warns1) :=
        run_command command (_env self) (debug (_config self)) cwd in
      let trace :=
        [SanityChecks;
         RunCommand command (_env self) (debug (_config self)) cwd] in
      if negb (returncode result =? 0)
      then (self, trace,
            SysExit (exit_message result) (returncode result) (warns0 ++ warns1))
      else (self, trace, Return (Some (stdout result)))
    end.

End Execute.

(** [needle in hay] *)
Definition contains (needle hay : string) : Prop :=
  ∃ pre post, hay = pre +:+ needle +:+ post.

(** The configuration with both extra argument lists replaced. *)
Definition with_distronode_args (pargs cargs : list string) (config : Config)
  : Config :=
  {| provisioner :=
       {| inventory_directory := inventory_directory (provisioner config);
          options := options (provisioner config);
          playbooks_converge := playbooks_converge (provisioner config);
          provisioner_distronode_args := pargs;
          provisioner_env := provisioner_env (provisioner config) |};
     verifier_env := verifier_env config;
     config_verifier_env := config_verifier_env config;
     distronode_args := cargs;
     action := action config;
     scenario_path := scenario_path config;
     debug := debug config |}.

(** The instance seen through another configuration. *)
Definition with_config (config : Config) (self : DistronodePlaybook)
  : DistronodePlaybook :=
  {| _distronode_command := _distronode_command self;
     _playbook := _playbook self;
     _config := config;
     _cli := _cli self;
     _env := _env self |}.

(** ** A sample implementation of the interfaces *)

Module sample.

(** [--name], or [-n] for a one-letter name, with [_] turned into [-]. *)
Fixpoint dashes (s : string) : string :=
  match s with
  | EmptyString => EmptyString
  | String c s => String (if Ascii.eqb c "_" then "-"%char else c) (dashes s)
  end.

Definition option_name (k : string) : string :=
  (if (String.length k =? 1)%nat then "-" else "--") +:+ dashes k.

Definition render_option (kv : string * value) : list string :=
  match kv.2 with
  | VBool false => []
  | VBool true => [option_name kv.1]
  | VNone => [option_name kv.1; "None"]
  | VInt n => [option_name kv.1; pretty n]
  | VStr s => [option_name kv.1; s]
  | VList l => option_name kv.1 :: l
  end.

(** Modelled from the spec: [molecule/util.py] is not among the sources.
    One implementation of the helper interface, rendering "POSIX-style CLI
    tokens": the flag is the truth value of the [verbose] option, which is
    consumed.  It serves to evaluate [bake] on concrete inputs; the theorems
    hold for every implementation. *)
#[export] Instance helpers : util.Helpers := {|
  util.flag := bool;
  util.verbose_flag o := (truthy_get (o !! "verbose"), delete "verbose" o);
  util.dict2args o := concat (render_option <$> map_to_list o);
  util.bool2args b := if b then ["--verbose"] else []
|}.

(** A stand-in for [rich.markup.escape]: a backslash before every opening
    bracket. *)
Fixpoint escape_brackets (s : string) : string :=
  match s with
  | EmptyString => EmptyString
  | String c s =>
    if Ascii.eqb c "["
    then String "092"%char (String c (escape_brackets s))
    else String c (escape_brackets s)
  end.

(** A world in which a run of [fail.yml] ends with return code 2 and every
    other run succeeds and prints [ok]. *)
#[export] Instance runtime : Runtime := {|
  escape := escape_brackets;
  sanity_checks _ := [];
  spawn cmd _ _ :=
    if bool_decide ("fail.yml" ∈ cmd) then (2, "fatal", ["deprecated"])
    else (0, "ok", [])
|}.

(** A configuration with the given inventory directory, options and action;
    the converge playbook is [converge.yml]. *)
Definition config_of (inventory : value) (opts : dict) (a : option string)
  : Config :=
  {| provisioner :=
       {| inventory_directory := inventory;
          options := opts;
          playbooks_converge := Some "converge.yml";
          provisioner_distronode_args := ["--diff"];
          provisioner_env := {[ "HOME" := VStr "/root" ]} |};
     verifier_env := ∅;
     config_verifier_env := ∅;
     distronode_args := ["--extra-vars"; "a=1 b=2"];
     action := a;
     scenario_path := "/scenario";
     debug := false |}.

Definition inventory : value := VStr "/tmp/inventory".

Definition converge : DistronodePlaybook :=
  __init__ (Some "converge.yml")
    (config_of inventory {[ "become" := VBool true ]} (Some "converge")) false.

Definition create : DistronodePlaybook :=
  __init__ (Some "create.yml")
    (config_of inventory {[ "become" := VBool true ]} (Some "create")) false.

Definition verify : DistronodePlaybook :=
  __init__ (Some "verify.yml")
    (config_of inventory {[ "become" := VBool true ]} (Some "verify")) false.

(** A verify run whose options carry [become: 0]. *)
Definition verify_become_zero : DistronodePlaybook :=
  __init__ (Some "verify.yml")
    (config_of inventory {[ "become" := VInt 0 ]} (Some "verify")) false.

Definition failing : DistronodePlaybook :=
  __init__ (Some "fail.yml") (config_of inventory ∅ (Some "verify")) false.

Definition no_playbook : DistronodePlaybook :=
  __init__ None (config_of inventory ∅ (Some "prepare")) false.

(** The caller names an inventory of its own before baking. *)
Definition converge_own_inventory : DistronodePlaybook :=
  add_cli_arg "inventory" (VStr "hosts.ini")
    (__init__ (Some "converge.yml")
       (config_of inventory {[ "inventory" := VStr "ctx.ini" ]} (Some "converge"))
       false).

(** The same, in a configuration without an inventory directory. *)
Definition converge_no_directory : DistronodePlaybook :=
  add_cli_arg "inventory" (VStr "hosts.ini")
    (__init__ (Some "converge.yml") (config_of (VStr "") ∅ (Some "converge"))
       false).

(** After baking, the caller adds a CLI override ... *)
Definition late_override : DistronodePlaybook :=
  add_cli_arg "tags" (VStr "db") (bake converge).

(** ... or an environment variable. *)
Definition late_env : DistronodePlaybook :=
  add_env_arg "DISTRONODE_FORCE_COLOR" (VStr "1") (bake converge).

End sample.

(** ** The life of an instance *)

Section Lifecycle.

Context `{H : util.Helpers} `{R : Runtime}.

(** The instances a caller can obtain: the constructor, followed by any
    sequence of calls of the four methods.  [execute] contributes the instance
    it leaves behind, also where the call ends in a process exit. *)
Inductive reachable (playbook : option string) (config : Config) (verify : bool)
  : DistronodePlaybook → Prop :=
  | reach_init :
      reachable playbook config verify (__init__ playbook config verify)
  | reach_add_cli_arg name v self :
      reachable playbook config verify self →
      reachable playbook config verify (add_cli_arg name v self)
  | reach_add_env_arg name v self :
      reachable playbook config verify self →
      reachable playbook config verify (add_env_arg name v self)
  | reach_bake self :
      reachable playbook config verify self →
      reachable playbook config verify (bake self)
  | reach_execute action_args self :
      reachable playbook config verify self →
      reachable playbook config verify (execute self action_args).1.1.

End Lifecycle.

(** ** Markup escaping ([rich.markup]) *)

Module markup.

Definition backslash : ascii := "092"%char.

(** The characters that may follow the opening bracket of a tag:
    [a-z], [#], [/] and [@]. *)
Definition tag_char (c : ascii) : bool :=
  let n := Ascii.N_of_ascii c in
  ((97 <=? n) && (n <=? 122))%N || bool_decide (c ∈ ["#"; "/"; "@"]%char).

(** The rest of a tag: a closing bracket comes before any opening bracket. *)
Fixpoint closes (s : string) : bool :=
  match s with
  | EmptyString => false
  | String c s =>
    if Ascii.eqb c "]" then true
    else if Ascii.eqb c "[" then false
    else closes s
  end.

(** A tag starts here: an opening bracket, a tag character, and the rest. *)
Definition tag_here (s : string) : bool :=
  match s with
  | String c (String d s) => Ascii.eqb c "[" && tag_char d && closes s
  | _ => false
  end.

(** A tag starts after a run of backslashes. *)
Fixpoint tag_ahead (s : string) : bool :=
  match s with
  | EmptyString => false
  | String c r => if Ascii.eqb c backslash then tag_ahead r else tag_here s
  end.

(** The substitution of [escape]: every tag gets a backslash in front, and
    the backslashes that precede a tag are doubled. *)
Fixpoint escape_tags (s : string) : string :=
  match s with
  | EmptyString => EmptyString
  | String c r =>
    if Ascii.eqb c backslash
    then if tag_ahead r
         then String backslash (String backslash (escape_tags r))
         else String backslash (escape_tags r)
    else if tag_here s
         then String backslash (String c (escape_tags r))
         else String c (escape_tags r)
  end.

(** The text ends with one backslash, not two. *)
Fixpoint lone_trailing_backslash (previous : bool) (s : string) : bool :=
  match s with
  | EmptyString => false
  | String c EmptyString => Ascii.eqb c backslash && negb previous
  | String c r => lone_trailing_backslash (Ascii.eqb c backslash) r
  end.

(** [rich.markup.escape(markup)]: the substitution, and one more backslash
    after a lone trailing one. *)
Definition escape (s : string) : string :=
  let m := escape_tags s in
  if lone_trailing_backslash false m then m +:+ String backslash EmptyString
  else m.

Fixpoint has_char (c : ascii) (s : string) : bool :=
  match s with
  | EmptyString => false
  | String d s => Ascii.eqb c d || has_char c s
  end.

(** A text without opening bracket and without lone trailing backslash. *)
Definition plain (s : string) : bool :=
  negb (has_char "[" s) && negb (lone_trailing_backslash false s).

End markup.

(** [needle in hay], computed: some suffix of [hay] starts with [needle]. *)
Fixpoint containsb (needle hay : string) : bool :=
  String.prefix needle hay
  || match hay with
     | EmptyString => false
     | String _ hay => containsb needle hay
     end.

(** ** Failing runs under the markup escape *)

Module sample_markup.

(** The world of [sample.runtime], with the markup escape of [rich]. *)
#[export] Instance runtime : Runtime := {|
  escape := markup.escape;
  sanity_checks _ := [];
  spawn cmd _ _ :=
    if bool_decide ("fail.yml" ∈ cmd) then (2, "fatal", ["deprecated"])
    else (0, "ok", [])
|}.

(** A failing run whose extra arguments hold a single quote. *)
Definition failing_quote : DistronodePlaybook :=
  with_config
    (with_distronode_args ["--diff"] ["--extra-vars"; "msg=it's"]
       (_config sample.failing))
    sample.failing.

(** A failing run whose extra arguments hold a bracketed pattern. *)
Definition failing_bracket : DistronodePlaybook :=
  with_config
    (with_distronode_args ["--diff"] ["--limit"; "web[a]"]
       (_config sample.failing))
    sample.failing.

End sample_markup.

(** * Properties *)

(** ** Truthiness *)

Lemma truthy_path_true (p : option string) :
  truthy_path p = true ↔ ∃ s, p = Some s ∧ s ≠ "".
Proof.
  destruct p as [s|]; simpl.
  - rewrite negb_true_iff. split.
    + intros E. exists s. split; [done|]. intros ->. by rewrite String.eqb_refl in E.
    + intros (s' & [= <-] & Hne). by apply String.eqb_neq.
  - split; [done|]. by intros (? & ? & _).
Qed.

Lemma truthy_path_false (p : option string) :
  truthy_path p = false ↔ p = None ∨ p = Some "".
Proof.
  destruct p as [s|]; simpl.
  - rewrite negb_false_iff, String.eqb_eq. split; [intros ->; by right|].
    intros [?|[= ->]]; done.
  - split; [by left|done].
Qed.

(** The falsy values: [None], [False], [0], the empty string and the empty
    list. *)
Lemma falsy_values (v : value) :
  truthy v = false ↔ v ∈ [VNone; VBool false; VInt 0; VStr ""; VList []].
Proof.
  split.
  - destruct v as [|[]|n|s|[|]]; simpl; try done; intros E.
    + set_solver.
    + set_solver.
    + apply negb_false_iff, Z.eqb_eq in E as ->. set_solver.
    + apply negb_false_iff, String.eqb_eq in E as ->. set_solver.
    + set_solver.
  - intros Hv. repeat (apply elem_of_cons in Hv as [->|Hv]; [done|]).
    by apply elem_of_nil in Hv.
Qed.

(** ** [shlex] *)

(** A non-empty token of safe characters is left as it is. *)
Lemma quote_safe (s : string) :
  s ≠ "" → shlex.all_safe s = true → shlex.quote s = s.
Proof.
  intros Hne Hs. unfold shlex.quote.
  apply String.eqb_neq in Hne as ->. by rewrite Hs.
Qed.

Example join_quotes_unsafe_tokens :
  shlex.join ["distronode-playbook"; "--extra-vars"; "a=1 b=2"; ""]
  = "distronode-playbook --extra-vars 'a=1 b=2' ''".
Proof. reflexivity. Qed.

(** A single quote inside a token is closed, double-quoted and reopened. *)
Example quote_single_quote :
  shlex.quote "it's"
  = String shlex.squote
      ("it" +:+ String shlex.squote (String shlex.dquote (String shlex.squote
         (String shlex.dquote (String shlex.squote ("s" +:+
            String shlex.squote EmptyString)))))).
Proof. reflexivity. Qed.

(** ** [add_cli_arg] *)

Lemma add_cli_arg_falsy name v self :
  truthy v = false → add_cli_arg name v self = self.
Proof. unfold add_cli_arg. by intros ->. Qed.

Lemma add_cli_arg_truthy name v self :
  truthy v = true → _cli (add_cli_arg name v self) = <[name := v]> (_cli self).
Proof. unfold add_cli_arg. by intros ->. Qed.

Lemma add_cli_arg_frame name v self :
  _distronode_command (add_cli_arg name v self) = _distronode_command self
  ∧ _playbook (add_cli_arg name v self) = _playbook self
  ∧ _config (add_cli_arg name v self) = _config self
  ∧ _env (add_cli_arg name v self) = _env self.
Proof. unfold add_cli_arg. by destruct (truthy v). Qed.

Lemma merge_dicts_lookup (a b : dict) k :
  util.merge_dicts a b !! k =
    match b !! k with Some v => Some v | None => a !! k end.
Proof.
  unfold util.merge_dicts. rewrite lookup_union.
  destruct (b !! k), (a !! k); done.
Qed.

(** ** [bake] *)

Section BakeFacts.

Context `{H : util.Helpers}.

Lemma bake_unset self :
  truthy_path (_playbook self) = false → bake self = self.
Proof.
  intros [E|E]%truthy_path_false; unfold bake; rewrite E; done.
Qed.

(** With a playbook set, [bake] stores the inventory override and the
    command, and nothing else. *)
Lemma bake_set self playbook :
  _playbook self = Some playbook → playbook ≠ "" →
  bake self =
    {| _distronode_command :=
         Some ("distronode-playbook" :: util.dict2args (baked_options self)
                 ++ util.bool2args (util.verbose_flag (merged_options self)).1
                 ++ extra_args (_config self) ++ [playbook]);
       _playbook := _playbook self;
       _config := _config self;
       _cli := _cli (add_cli_arg "inventory"
                       (inventory_directory (provisioner (_config self))) self);
       _env := _env self |}.
Proof.
  intros Hp Hne. unfold bake, baked_options, merged_options. rewrite Hp.
  apply String.eqb_neq in Hne as ->.
  destruct (add_cli_arg_frame "inventory"
              (inventory_directory (provisioner (_config self))) self)
    as (_ & -> & -> & ->).
  rewrite Hp. by destruct (util.verbose_flag _).
Qed.

Lemma bake_frame self :
  _playbook (bake self) = _playbook self
  ∧ _config (bake self) = _config self
  ∧ _env (bake self) = _env self.
Proof.
  destruct (truthy_path (_playbook self)) eqn:E.
  - apply truthy_path_true in E as (p & Hp & Hne).
    by rewrite (bake_set _ _ Hp Hne).
  - by rewrite bake_unset.
Qed.

Lemma merged_options_bake self :
  merged_options (bake self) = merged_options self.
Proof.
  destruct (truthy_path (_playbook self)) eqn:E; [|by rewrite bake_unset].
  apply truthy_path_true in E as (p & Hp & Hne).
  rewrite (bake_set _ _ Hp Hne). unfold merged_options, add_cli_arg; simpl.
  destruct (truthy _); simpl; [|done]. by rewrite insert_insert_eq.
Qed.

Lemma baked_options_bake self :
  baked_options (bake self) = baked_options self.
Proof.
  unfold baked_options. rewrite merged_options_bake.
  by destruct (bake_frame self) as (-> & -> & _).
Qed.

(** The inventory override that [bake] stored is stored again unchanged. *)
Lemma cli_bake_again self playbook :
  _playbook self = Some playbook → playbook ≠ "" →
  _cli (add_cli_arg "inventory"
          (inventory_directory (provisioner (_config (bake self)))) (bake self))
  = _cli (bake self).
Proof.
  intros Hp Hne. rewrite (bake_set _ _ Hp Hne). unfold add_cli_arg; simpl.
  destruct (truthy _) eqn:Ht; simpl; rewrite ?Ht; simpl; [|done].
  by rewrite insert_insert_eq.
Qed.

(** The option mappings do not read the extra argument lists. *)
Lemma merged_options_with_distronode_args self pargs cargs :
  merged_options (with_config (with_distronode_args pargs cargs (_config self)) self)
  = merged_options self.
Proof.
  unfold merged_options, add_cli_arg; simpl.
  by destruct (truthy (inventory_directory (provisioner (_config self)))).
Qed.

Lemma baked_options_with_distronode_args self pargs cargs :
  baked_options (with_config (with_distronode_args pargs cargs (_config self)) self)
  = baked_options self.
Proof.
  unfold baked_options. by rewrite merged_options_with_distronode_args.
Qed.

End BakeFacts.

(** ** The baked command *)

Section BakeClaims.

Context `{H : util.Helpers}.

(** C1. Without a playbook [bake] changes nothing, so no command is produced.
    With a playbook set, the command [bake] stores is the executable name
    [distronode-playbook], the tokens [dict2args] renders from the options, the
    tokens [bool2args] renders from the verbosity flag, the extra arguments -
    the provisioner's list followed by the caller's list, or nothing for the
    actions [create] and [destroy] - and the playbook path; so its first token
    is the executable name and its last token is the playbook path. *)
Theorem bake_command_layout self :
  (_playbook self = None ∨ _playbook self = Some "" → bake self = self)
  ∧ ∀ playbook,
      _playbook self = Some playbook → playbook ≠ "" →
      ∃ command,
        _distronode_command (bake self) = Some command
        ∧ command = (["distronode-playbook"]
                       ++ util.dict2args (baked_options self)
                       ++ util.bool2args
                            (util.verbose_flag (merged_options self)).1
                       ++ (if bool_decide (action (_config self) = Some "create"
                                           ∨ action (_config self) = Some "destroy")
                           then []
                           else provisioner_distronode_args
                                  (provisioner (_config self))
                                ++ distronode_args (_config self))
                       ++ [playbook])%list
        ∧ head command = Some "distronode-playbook"
        ∧ last command = Some playbook.
Proof.
  split; [intros Hp%truthy_path_false; by apply bake_unset|].
  intros playbook Hp Hne. eexists. rewrite (bake_set _ _ Hp Hne). simpl.
  split; [reflexivity|]. split; [|split; [reflexivity|]].
  - do 3 f_equal. unfold extra_args, lifecycle_action.
    destruct (action (_config self)) as [a|].
    + case_bool_decide as Ha.
      * by destruct Ha as [[= ->]|[= ->]].
      * destruct (String.eqb_spec a "create") as [->|_]; [by destruct Ha; left|].
        destruct (String.eqb_spec a "destroy") as [->|_]; [by destruct Ha; right|].
        done.
    + rewrite bool_decide_false; [done|]. by intros [|].
  - rewrite !app_comm_cons, !app_assoc. apply last_snoc.
Qed.

(** C2. For the actions [create] and [destroy] the command consists of the
    executable name, the option tokens, the verbosity tokens and the playbook
    path only, and it is the same command whatever the two extra argument
    lists of the configuration hold. *)
Theorem bake_lifecycle_without_extra_args self playbook :
  _playbook self = Some playbook → playbook ≠ "" →
  action (_config self) = Some "create" ∨ action (_config self) = Some "destroy" →
  _distronode_command (bake self)
    = Some (["distronode-playbook"]
              ++ util.dict2args (baked_options self)
              ++ util.bool2args (util.verbose_flag (merged_options self)).1
              ++ [playbook])%list
  ∧ ∀ pargs cargs,
      _distronode_command
        (bake (with_config (with_distronode_args pargs cargs (_config self)) self))
      = _distronode_command (bake self).
Proof.
  intros Hp Hne Ha.
  assert (∀ c, action c = action (_config self) → extra_args c = []) as Hx.
  { intros c Hc. unfold extra_args. rewrite Hc. by destruct Ha as [-> | ->]. }
  split.
  - rewrite (bake_set _ _ Hp Hne), (Hx _ eq_refl). done.
  - intros pargs cargs.
    rewrite (bake_set _ _ Hp Hne), (bake_set (with_config _ _) _ Hp Hne).
    simpl. rewrite (Hx _ eq_refl), (Hx (with_distronode_args _ _ _) eq_refl).
    by rewrite baked_options_with_distronode_args,
      merged_options_with_distronode_args.
Qed.

(** C3, as the code has it.  For a playbook other than the converge playbook
    the mapping rendered into the command has lost a [become] entry whose
    value is truthy; an entry with a falsy value stays, every other option is
    untouched, and in no case is the [become] entry that is rendered truthy. *)
Theorem bake_strips_truthy_become self playbook :
  _playbook self = Some playbook → playbook ≠ "" →
  _playbook self ≠ playbooks_converge (provisioner (_config self)) →
  let derived := (util.verbose_flag (merged_options self)).2 in
  _distronode_command (bake self)
    = Some (["distronode-playbook"]
              ++ util.dict2args (baked_options self)
              ++ util.bool2args (util.verbose_flag (merged_options self)).1
              ++ extra_args (_config self)
              ++ [playbook])%list
  ∧ (truthy_get (derived !! "become") = true →
     baked_options self = delete "become" derived
     ∧ baked_options self !! "become" = None)
  ∧ (truthy_get (derived !! "become") = false → baked_options self = derived)
  ∧ truthy_get (baked_options self !! "become") = false
  ∧ ∀ k, k ≠ "become" → baked_options self !! k = derived !! k.
Proof.
  intros Hp Hne Hc derived. split; [by rewrite (bake_set _ _ Hp Hne)|].
  unfold baked_options, strip_become. fold derived.
  rewrite decide_True by done.
  destruct (truthy_get (derived !! "become")) eqn:E.
  - split; [intros _; by rewrite lookup_delete_eq|].
    split; [done|]. rewrite lookup_delete_eq. split; [done|].
    intros k Hk. by rewrite lookup_delete_ne.
  - split; [done|]. by split.
Qed.

End BakeClaims.

Lemma bake_command_layout_witness :
  _distronode_command (bake (H := sample.helpers) sample.converge)
  = Some ["distronode-playbook"; "--inventory"; "/tmp/inventory"; "--become";
          "--diff"; "--extra-vars"; "a=1 b=2"; "converge.yml"]
  ∧ last (default [] (_distronode_command (bake (H := sample.helpers)
                                              sample.converge)))
    = Some "converge.yml".
Proof.
  destruct (bake_command_layout (H := sample.helpers) sample.converge)
    as [_ Hset].
  destruct (Hset "converge.yml" eq_refl) as (command & E & Ec & _ & Hl).
  - discriminate.
  - rewrite E. simpl. split; [|exact Hl]. rewrite Ec. reflexivity.
Defined.

Lemma bake_lifecycle_without_extra_args_witness :
  _distronode_command (bake (H := sample.helpers) sample.create)
  = Some ["distronode-playbook"; "--inventory"; "/tmp/inventory"; "create.yml"].
Proof.
  destruct (bake_lifecycle_without_extra_args (H := sample.helpers) sample.create
              "create.yml" eq_refl) as [E _].
  - discriminate.
  - by left.
  - rewrite E. reflexivity.
Defined.

Lemma bake_strips_truthy_become_witness :
  baked_options (H := sample.helpers) sample.verify !! "become" = None.
Proof.
  destruct (bake_strips_truthy_become (H := sample.helpers) sample.verify
              "verify.yml" eq_refl) as (_ & Ht & _).
  - discriminate.
  - discriminate.
  - apply Ht. reflexivity.
Defined.

(** C3, a counterexample.  The verify playbook is not the converge playbook,
    the options carry [become: 0], and the entry is still in the mapping that
    is rendered; with the sample helpers the command holds the tokens
    [--become 0]. *)
Lemma bake_keeps_falsy_become :
  _playbook sample.verify_become_zero
    ≠ playbooks_converge (provisioner (_config sample.verify_become_zero))
  ∧ merged_options sample.verify_become_zero !! "become" = Some (VInt 0)
  ∧ baked_options (H := sample.helpers) sample.verify_become_zero !! "become"
    = Some (VInt 0)
  ∧ _distronode_command (bake (H := sample.helpers) sample.verify_become_zero)
    = Some ["distronode-playbook"; "--inventory"; "/tmp/inventory";
            "--become"; "0"; "--diff"; "--extra-vars"; "a=1 b=2"; "verify.yml"].
Proof. split; [discriminate|]. split; [|split]; vm_compute; reflexivity. Qed.

(** ** [execute] *)

Section ExecuteFacts.

Context `{H : util.Helpers} `{R : Runtime}.

Lemma ensure_baked_frame self :
  _playbook (ensure_baked self) = _playbook self
  ∧ _config (ensure_baked self) = _config self
  ∧ _env (ensure_baked self) = _env self.
Proof.
  unfold ensure_baked. destruct (_distronode_command self); [done|].
  apply bake_frame.
Qed.

(** Once [execute] is past its first statement a playbook that is set has a
    command. *)
Lemma ensure_baked_command self :
  truthy_path (_playbook self) = true →
  is_Some (_distronode_command (ensure_baked self)).
Proof.
  intros (p & Hp & Hne)%truthy_path_true. unfold ensure_baked.
  destruct (_distronode_command self) eqn:E; [by rewrite E|].
  by rewrite (bake_set _ _ Hp Hne).
Qed.

Lemma ensure_baked_unset self :
  truthy_path (_playbook self) = false → ensure_baked self = self.
Proof.
  intros E. unfold ensure_baked.
  destruct (_distronode_command self); [done|]. by apply bake_unset.
Qed.

(** The run of [execute] for a playbook that is set, in terms of what the
    child process answers. *)
Lemma execute_run self action_args command rc out warns :
  truthy_path (_playbook self) = true →
  _distronode_command (ensure_baked self) = Some command →
  spawn command (_env self) (scenario_path (_config self)) = (rc, out, warns) →
  execute self action_args =
    (ensure_baked self,
     [SanityChecks;
      RunCommand command (_env self) (debug (_config self))
        (scenario_path (_config self))],
     if negb (rc =? 0)
     then SysExit (exit_message {| args := command; returncode := rc; stdout := out |})
            rc (sanity_checks (_config self) ++ warns)
     else Return (Some out)).
Proof.
  intros Hp Hc Hs. unfold execute, run_command.
  destruct (ensure_baked_frame self) as (-> & -> & ->).
  rewrite Hp, Hc. simpl. rewrite Hs. simpl. by destruct (rc =? 0).
Qed.

Lemma execute_never_raises self action_args :
  (execute self action_args).2 ≠ Raise.
Proof.
  destruct (truthy_path (_playbook self)) eqn:Hp.
  - destruct (ensure_baked_command self Hp) as [command Hc].
    destruct (spawn command (_env self) (scenario_path (_config self)))
      as [[rc out] warns] eqn:Hs.
    rewrite (execute_run _ _ _ _ _ _ Hp Hc Hs). simpl. by destruct (rc =? 0).
  - unfold execute. destruct (ensure_baked_frame self) as (-> & _).
    by rewrite Hp.
Qed.

End ExecuteFacts.

(** ** Substrings *)

Lemma string_app_assoc (s1 s2 s3 : string) :
  (s1 +:+ s2) +:+ s3 = s1 +:+ (s2 +:+ s3).
Proof.
  induction s1 as [|c s1 IH]; [reflexivity|]. exact (f_equal (String c) IH).
Qed.

Lemma contains_here (pre needle post : string) :
  contains needle (pre +:+ needle +:+ post).
Proof. by exists pre, post. Qed.

Lemma contains_app_r (needle pre hay : string) :
  contains needle hay → contains needle (pre +:+ hay).
Proof.
  intros (a & b & ->). exists (pre +:+ a), b. by rewrite string_app_assoc.
Qed.

Lemma prefix_app (s t : string) : String.prefix s (s +:+ t) = true.
Proof.
  induction s as [|c s IH]; [by destruct t|].
  change (String c s +:+ t) with (String c (s +:+ t)). simpl.
  destruct (ascii_dec c c); [exact IH|done].
Qed.

(** The computed test finds every occurrence. *)
Lemma contains_containsb (needle hay : string) :
  contains needle hay → containsb needle hay = true.
Proof.
  intros (pre & post & ->). induction pre as [|c pre IH].
  - change (EmptyString +:+ needle +:+ post) with (needle +:+ post).
    pose proof (prefix_app needle post) as Hp.
    destruct (needle +:+ post); cbn [containsb]; by rewrite Hp.
  - change (String c pre +:+ needle +:+ post)
      with (String c (pre +:+ needle +:+ post)).
    cbn [containsb]. rewrite IH. apply orb_true_r.
Qed.

(** ** The markup escape *)

Lemma tag_ahead_no_bracket (s : string) :
  markup.has_char "[" s = false → markup.tag_ahead s = false.
Proof.
  induction s as [|c s IH]; [done|].
  cbn [markup.has_char markup.tag_ahead].
  intros [Hc Hs]%orb_false_iff. destruct (Ascii.eqb c markup.backslash); [auto|].
  unfold markup.tag_here. destruct s; [done|].
  by rewrite (Ascii.eqb_sym c "["), Hc.
Qed.

Lemma escape_tags_no_bracket (s : string) :
  markup.has_char "[" s = false → markup.escape_tags s = s.
Proof.
  induction s as [|c s IH]; [done|]. intros Hb.
  cbn [markup.has_char] in Hb. pose proof Hb as [Hc Hs]%orb_false_iff.
  change (markup.escape_tags (String c s)) with
    (if Ascii.eqb c markup.backslash
     then if markup.tag_ahead s
          then String markup.backslash
                 (String markup.backslash (markup.escape_tags s))
          else String markup.backslash (markup.escape_tags s)
     else if markup.tag_here (String c s)
          then String markup.backslash (String c (markup.escape_tags s))
          else String c (markup.escape_tags s)).
  rewrite (IH Hs), (tag_ahead_no_bracket _ Hs).
  destruct (Ascii.eqb_spec c markup.backslash) as [->|_]; [done|].
  assert (markup.tag_here (String c s) = false) as ->; [|done].
  unfold markup.tag_here. destruct s; [done|].
  by rewrite (Ascii.eqb_sym c "["), Hc.
Qed.

(** The escape leaves a text without opening bracket and without lone
    trailing backslash as it is. *)
Lemma escape_plain (s : string) :
  markup.plain s = true → markup.escape s = s.
Proof.
  intros [Hb Ht]%andb_true_iff.
  apply negb_true_iff in Hb. apply negb_true_iff in Ht.
  unfold markup.escape. by rewrite (escape_tags_no_bracket _ Hb), Ht.
Qed.

(** ** The outcomes of [execute] *)

Section ExecuteClaims.

Context `{H : util.Helpers} `{R : Runtime}.

(** C4, as the code has it.  When the child process ends with a return code
    other than zero, [execute] ends in a process exit with exactly that code,
    after the child process was run with the baked command.  The message is
    the fixed text around the return code and the markup escape of the
    shell-quoted command line: it contains the return code, and it contains
    the shell-quoted command line itself whenever the escape leaves that line
    as it is - under the escape of [rich], whenever the line has no opening
    bracket and no lone trailing backslash. *)
Theorem execute_nonzero_exits self action_args command rc out warns :
  truthy_path (_playbook self) = true →
  _distronode_command (ensure_baked self) = Some command →
  spawn command (_env self) (scenario_path (_config self)) = (rc, out, warns) →
  rc ≠ 0 →
  ∃ msg,
    execute self action_args =
      (ensure_baked self,
       [SanityChecks;
        RunCommand command (_env self) (debug (_config self))
          (scenario_path (_config self))],
       SysExit msg rc (sanity_checks (_config self) ++ warns))
    ∧ msg = "Distronode return code was " +:+ pretty rc
              +:+ ", command was: [dim]" +:+ escape (shlex.join command)
              +:+ "[/dim]"
    ∧ contains (pretty rc) msg
    ∧ (escape (shlex.join command) = shlex.join command →
       contains (shlex.join command) msg)
    ∧ ((∀ s, escape s = markup.escape s) →
       markup.plain (shlex.join command) = true →
       contains (shlex.join command) msg).
Proof.
  intros Hp Hc Hs Hrc. eexists. split; [|split; [reflexivity|]].
  - rewrite (execute_run _ _ _ _ _ _ Hp Hc Hs).
    apply Z.eqb_neq in Hrc as ->. reflexivity.
  - assert (escape (shlex.join command) = shlex.join command →
            contains (shlex.join command)
              ("Distronode return code was " +:+ pretty rc
                 +:+ ", command was: [dim]" +:+ escape (shlex.join command)
                 +:+ "[/dim]")) as Hline.
    { intros ->. do 3 apply contains_app_r. by exists "", "[/dim]". }
    split; [apply contains_here|]. split; [exact Hline|].
    intros Hrich Hplain. apply Hline. rewrite Hrich. by apply escape_plain.
Qed.

(** C5. Without a playbook ([None] or the empty string) [execute] returns
    [None], leaves the instance as it was, and its only effect is the log
    line: the child process is not run. *)
Theorem execute_without_playbook_skips self action_args :
  _playbook self = None ∨ _playbook self = Some "" →
  execute self action_args =
    (self,
     [LogWarning ("Skipping, " +:+ str_action (action (_config self))
                    +:+ " action has no playbook.")],
     Return None)
  ∧ ∀ cmd env dbg cwd,
      RunCommand cmd env dbg cwd ∉ (execute self action_args).1.2.
Proof.
  intros Hp%truthy_path_false.
  assert (execute self action_args =
    (self,
     [LogWarning ("Skipping, " +:+ str_action (action (_config self))
                    +:+ " action has no playbook.")],
     Return None)) as E.
  { unfold execute. rewrite (ensure_baked_unset _ Hp), Hp. reflexivity. }
  split; [exact E|]. intros cmd env dbg cwd. rewrite E. simpl.
  intros [=]%list_elem_of_singleton.
Qed.

(** C7. When the child process ends with return code 0, [execute] returns the
    output the child process printed, as it was captured. *)
Theorem execute_zero_returns_stdout self action_args command out warns :
  truthy_path (_playbook self) = true →
  _distronode_command (ensure_baked self) = Some command →
  spawn command (_env self) (scenario_path (_config self)) = (0, out, warns) →
  execute self action_args =
    (ensure_baked self,
     [SanityChecks;
      RunCommand command (_env self) (debug (_config self))
        (scenario_path (_config self))],
     Return (Some out)).
Proof.
  intros Hp Hc Hs. by rewrite (execute_run _ _ _ _ _ _ Hp Hc Hs).
Qed.

(** C8. Baking twice gives the instance, and so the command, that baking once
    gives.  An instance that holds a command is not baked again by [execute]:
    the instance comes back unchanged and the child process is run with the
    command that was stored, whatever it is. *)
Theorem bake_idempotent_and_reused self :
  bake (bake self) = bake self
  ∧ _distronode_command (bake (bake self)) = _distronode_command (bake self)
  ∧ ∀ command action_args,
      _distronode_command self = Some command →
      ensure_baked self = self
      ∧ (execute self action_args).1.1 = self
      ∧ (truthy_path (_playbook self) = true →
         (execute self action_args).1.2 =
           [SanityChecks;
            RunCommand command (_env self) (debug (_config self))
              (scenario_path (_config self))]).
Proof.
  assert (bake (bake self) = bake self) as Hb.
  { destruct (truthy_path (_playbook self)) eqn:E.
    - apply truthy_path_true in E as (p & Hp & Hne).
      destruct (bake_frame self) as (Fp & Fc & Fe).
      rewrite (bake_set (bake self) p) by congruence.
      rewrite baked_options_bake, merged_options_bake,
        (cli_bake_again _ _ Hp Hne), Fp, Fc, Fe.
      by rewrite (bake_set self p Hp Hne).
    - rewrite (bake_unset _ E). by apply bake_unset. }
  split; [exact Hb|]. split; [by rewrite Hb|].
  intros command action_args Hc.
  assert (ensure_baked self = self) as He by (unfold ensure_baked; by rewrite Hc).
  split; [exact He|].
  destruct (truthy_path (_playbook self)) eqn:Hp.
  - destruct (spawn command (_env self) (scenario_path (_config self)))
      as [[rc out] warns] eqn:Hs.
    assert (_distronode_command (ensure_baked self) = Some command) as Hc'
      by (by rewrite He).
    rewrite (execute_run _ _ _ _ _ _ Hp Hc' Hs). simpl. by rewrite He.
  - unfold execute. rewrite He, Hp. simpl. by split.
Qed.

End ExecuteClaims.

(** The quoted command line of a failing run found in the message; the
    single quote of [msg=it's] is closed, double-quoted and reopened. *)
Lemma execute_nonzero_exits_witness :
  (execute (H := sample.helpers) (R := sample_markup.runtime)
     sample_markup.failing_quote None).2
  = SysExit
      ("Distronode return code was 2, command was: [dim]distronode-playbook --inventory /tmp/inventory --diff --extra-vars 'msg=it'"
         +:+ String shlex.dquote
               ("'" +:+ String shlex.dquote "'s' fail.yml[/dim]"))
      2 ["deprecated"]
  ∧ contains
      (shlex.join
         ["distronode-playbook"; "--inventory"; "/tmp/inventory"; "--diff";
          "--extra-vars"; "msg=it's"; "fail.yml"])
      ("Distronode return code was 2, command was: [dim]distronode-playbook --inventory /tmp/inventory --diff --extra-vars 'msg=it'"
         +:+ String shlex.dquote
               ("'" +:+ String shlex.dquote "'s' fail.yml[/dim]")).
Proof.
  destruct (execute_nonzero_exits (H := sample.helpers)
              (R := sample_markup.runtime) sample_markup.failing_quote None
              ["distronode-playbook"; "--inventory"; "/tmp/inventory"; "--diff";
               "--extra-vars"; "msg=it's"; "fail.yml"] 2 "fatal" ["deprecated"])
    as (msg & E & Em & _ & _ & Hline).
  - reflexivity.
  - vm_compute. reflexivity.
  - reflexivity.
  - discriminate.
  - assert (msg =
      "Distronode return code was 2, command was: [dim]distronode-playbook --inventory /tmp/inventory --diff --extra-vars 'msg=it'"
        +:+ String shlex.dquote
              ("'" +:+ String shlex.dquote "'s' fail.yml[/dim]")) as <-
      by (rewrite Em; vm_compute; reflexivity).
    split; [by rewrite E|]. apply Hline; reflexivity.
Defined.

(** C4, a counterexample.  The command holds the token [web[a]]; the run ends
    in an exit with code 2, the message holds the escaped [web\[a]], and the
    shell-quoted command line does not occur in it. *)
Lemma execute_message_markup_escaped :
  (execute (H := sample.helpers) (R := sample_markup.runtime)
     sample_markup.failing_bracket None).2
  = SysExit
      "Distronode return code was 2, command was: [dim]distronode-playbook --inventory /tmp/inventory --diff --limit 'web\[a]' fail.yml[/dim]"
      2 ["deprecated"]
  ∧ shlex.join
      ["distronode-playbook"; "--inventory"; "/tmp/inventory"; "--diff";
       "--limit"; "web[a]"; "fail.yml"]
    = "distronode-playbook --inventory /tmp/inventory --diff --limit 'web[a]' fail.yml"
  ∧ ¬ contains
        (shlex.join
           ["distronode-playbook"; "--inventory"; "/tmp/inventory"; "--diff";
            "--limit"; "web[a]"; "fail.yml"])
        "Distronode return code was 2, command was: [dim]distronode-playbook --inventory /tmp/inventory --diff --limit 'web\[a]' fail.yml[/dim]".
Proof.
  split; [vm_compute; reflexivity|]. split; [reflexivity|].
  intros Hc%contains_containsb. vm_compute in Hc. discriminate Hc.
Qed.

Lemma execute_without_playbook_skips_witness :
  (execute (H := sample.helpers) (R := sample.runtime) sample.no_playbook None).2
  = Return None.
Proof.
  destruct (execute_without_playbook_skips (H := sample.helpers)
              (R := sample.runtime) sample.no_playbook None) as [E _].
  - by left.
  - rewrite E. reflexivity.
Defined.

Lemma execute_zero_returns_stdout_witness :
  (execute (H := sample.helpers) (R := sample.runtime) sample.converge None).2
  = Return (Some "ok").
Proof.
  rewrite (execute_zero_returns_stdout (H := sample.helpers)
             (R := sample.runtime) sample.converge None
             ["distronode-playbook"; "--inventory"; "/tmp/inventory"; "--become";
              "--diff"; "--extra-vars"; "a=1 b=2"; "converge.yml"] "ok" []).
  - reflexivity.
  - reflexivity.
  - vm_compute. reflexivity.
  - reflexivity.
Defined.

(** The override added after baking would change the command, and [execute]
    still runs the command that was baked before. *)
Lemma bake_idempotent_and_reused_witness :
  _distronode_command (bake (H := sample.helpers) sample.late_override)
  ≠ _distronode_command sample.late_override
  ∧ (execute (H := sample.helpers) (R := sample.runtime)
       sample.late_override None).1.2
    = [SanityChecks;
       RunCommand
         ["distronode-playbook"; "--inventory"; "/tmp/inventory"; "--become";
          "--diff"; "--extra-vars"; "a=1 b=2"; "converge.yml"]
         (_env sample.late_override) false "/scenario"].
Proof.
  split; [vm_compute; discriminate|].
  destruct (bake_idempotent_and_reused (H := sample.helpers)
              (R := sample.runtime) sample.late_override) as (_ & _ & Hr).
  destruct (Hr ["distronode-playbook"; "--inventory"; "/tmp/inventory";
                "--become"; "--diff"; "--extra-vars"; "a=1 b=2"; "converge.yml"] None)
    as (_ & _ & Ht).
  - vm_compute. reflexivity.
  - apply Ht. reflexivity.
Defined.

(** ** Overrides *)

(** C6, as the code has it.  A falsy value leaves the instance, and so the
    local overrides, unchanged.  A truthy value is stored under its name and
    wins over a same-named option of any context mapping it is merged with;
    at bake time this is the value of the merged options unless the name is
    [inventory] and the inventory directory is truthy, in which case [bake]
    has replaced the stored value by the directory. *)
Theorem add_cli_arg_override name v self :
  (truthy v = false → add_cli_arg name v self = self)
  ∧ (truthy v = true →
     _cli (add_cli_arg name v self) = <[name := v]> (_cli self)
     ∧ (∀ context_options : dict,
          util.merge_dicts context_options (_cli (add_cli_arg name v self))
            !! name = Some v)
     ∧ (name ≠ "inventory"
        ∨ truthy (inventory_directory (provisioner (_config self))) = false →
        merged_options (add_cli_arg name v self) !! name = Some v)
     ∧ (name = "inventory" →
        truthy (inventory_directory (provisioner (_config self))) = true →
        merged_options (add_cli_arg name v self) !! name
        = Some (inventory_directory (provisioner (_config self))))).
Proof.
  split; [apply add_cli_arg_falsy|]. intros Hv.
  pose proof (add_cli_arg_truthy name v self Hv) as Hcli.
  destruct (add_cli_arg_frame name v self) as (_ & _ & Hcfg & _).
  split; [exact Hcli|]. split; [|split].
  - intros ctx. by rewrite merge_dicts_lookup, Hcli, lookup_insert_eq.
  - intros Hn. unfold merged_options. rewrite merge_dicts_lookup, Hcfg.
    destruct (truthy (inventory_directory _)) eqn:Hd.
    + destruct Hn as [Hn|]; [|done].
      rewrite add_cli_arg_truthy, Hcli by done.
      by rewrite lookup_insert_ne, lookup_insert_eq.
    + rewrite add_cli_arg_falsy, Hcli by done. by rewrite lookup_insert_eq.
  - intros -> Hd. unfold merged_options.
    rewrite merge_dicts_lookup, Hcfg, add_cli_arg_truthy by done.
    by rewrite lookup_insert_eq.
Qed.

Lemma add_cli_arg_override_witness :
  add_cli_arg "tags" (VStr "") sample.converge = sample.converge
  ∧ merged_options (add_cli_arg "become" (VStr "root") sample.converge)
      !! "become" = Some (VStr "root").
Proof.
  split.
  - apply (add_cli_arg_override "tags" (VStr "") sample.converge). reflexivity.
  - apply (add_cli_arg_override "become" (VStr "root") sample.converge).
    + reflexivity.
    + left. discriminate.
Defined.

(** C6, a counterexample.  The caller stores the truthy override
    [inventory = hosts.ini]; at bake time the merged options, and the command
    of the sample helpers, carry the inventory directory instead. *)
Lemma add_cli_arg_inventory_replaced :
  truthy (VStr "hosts.ini") = true
  ∧ _cli sample.converge_own_inventory !! "inventory" = Some (VStr "hosts.ini")
  ∧ merged_options sample.converge_own_inventory !! "inventory"
    = Some (VStr "/tmp/inventory")
  ∧ _distronode_command (bake (H := sample.helpers) sample.converge_own_inventory)
    = Some ["distronode-playbook"; "--inventory"; "/tmp/inventory"; "--diff";
            "--extra-vars"; "a=1 b=2"; "converge.yml"].
Proof. repeat split; vm_compute; reflexivity. Qed.

Section OverrideClaims.

Context `{H : util.Helpers} `{R : Runtime}.

(** C9, as the code has it.  [add_env_arg] sets the variable whatever the
    value and whether or not a command has been baked, and changes nothing
    else; [bake] and [execute] leave the environment mapping as it is; and
    [execute] hands the child process the mapping as it stands when it is
    called, so a variable set just before the call reaches the child process,
    baked command or not. *)
Theorem add_env_arg_unconditional name v self :
  _env (add_env_arg name v self) = <[name := v]> (_env self)
  ∧ _env (add_env_arg name v self) !! name = Some v
  ∧ (∀ k, k ≠ name → _env (add_env_arg name v self) !! k = _env self !! k)
  ∧ _distronode_command (add_env_arg name v self) = _distronode_command self
  ∧ _cli (add_env_arg name v self) = _cli self
  ∧ _env (bake self) = _env self
  ∧ (∀ action_args, _env (execute self action_args).1.1 = _env self)
  ∧ (∀ action_args,
       truthy_path (_playbook self) = true →
       ∃ command,
         _distronode_command (ensure_baked self) = Some command
         ∧ (execute self action_args).1.2
           = [SanityChecks;
              RunCommand command (_env self) (debug (_config self))
                (scenario_path (_config self))])
  ∧ (∀ action_args,
       truthy_path (_playbook self) = true →
       ∃ command,
         (execute (add_env_arg name v self) action_args).1.2
         = [SanityChecks;
            RunCommand command (<[name := v]> (_env self))
              (debug (_config self)) (scenario_path (_config self))]).
Proof.
  assert (∀ s action_args,
            truthy_path (_playbook s) = true →
            ∃ command,
              _distronode_command (ensure_baked s) = Some command
              ∧ (execute s action_args).1.2
                = [SanityChecks;
                   RunCommand command (_env s) (debug (_config s))
                     (scenario_path (_config s))]) as Hrun.
  { intros s action_args Hp.
    destruct (ensure_baked_command s Hp) as [command Hc].
    destruct (spawn command (_env s) (scenario_path (_config s)))
      as [[rc out] warns] eqn:Hs.
    exists command. split; [exact Hc|].
    by rewrite (execute_run _ _ _ _ _ _ Hp Hc Hs). }
  split; [done|]. split; [apply lookup_insert_eq|].
  split; [intros k Hk; by apply lookup_insert_ne|].
  split; [done|]. split; [done|]. split; [apply bake_frame|].
  split; [|split].
  - intros action_args.
    assert ((execute self action_args).1.1 = ensure_baked self) as ->.
    { destruct (truthy_path (_playbook self)) eqn:Hp.
      - destruct (ensure_baked_command self Hp) as [command Hc].
        destruct (spawn command (_env self) (scenario_path (_config self)))
          as [[rc out] warns] eqn:Hs.
        by rewrite (execute_run _ _ _ _ _ _ Hp Hc Hs).
      - unfold execute. destruct (ensure_baked_frame self) as (-> & _).
        by rewrite Hp. }
    apply ensure_baked_frame.
  - apply Hrun.
  - intros action_args Hp.
    destruct (Hrun (add_env_arg name v self) action_args Hp)
      as (command & _ & E).
    by exists command.
Qed.

(** C10, as the code has it.  With a playbook set and a truthy inventory
    directory, [bake] stores the directory as the [inventory] override, over
    any override the caller stored, and the merged options carry it.  With a
    falsy directory [bake] leaves the overrides alone, and the merged options
    have the [inventory] entry of the caller's overrides or else the one of the
    context's options, if any. *)
Theorem bake_inventory_override self playbook :
  _playbook self = Some playbook → playbook ≠ "" →
  let directory := inventory_directory (provisioner (_config self)) in
  (truthy directory = true →
   _cli (bake self) = <["inventory" := directory]> (_cli self)
   ∧ _cli (bake self) !! "inventory" = Some directory
   ∧ merged_options self !! "inventory" = Some directory)
  ∧ (truthy directory = false →
     _cli (bake self) = _cli self
     ∧ merged_options self
       = util.merge_dicts (options (provisioner (_config self))) (_cli self)
     ∧ merged_options self !! "inventory"
       = match _cli self !! "inventory" with
         | Some v => Some v
         | None => options (provisioner (_config self)) !! "inventory"
         end).
Proof.
  intros Hp Hne directory. rewrite (bake_set _ _ Hp Hne). simpl.
  unfold merged_options. fold directory.
  destruct (add_cli_arg_frame "inventory" directory self) as (_ & _ & -> & _).
  split; intros Hd.
  - rewrite merge_dicts_lookup, add_cli_arg_truthy by done.
    by rewrite lookup_insert_eq.
  - rewrite add_cli_arg_falsy by done. by rewrite merge_dicts_lookup.
Qed.

End OverrideClaims.

(** A variable set to the empty string after baking is in the environment
    the child process is run with. *)
Lemma add_env_arg_unconditional_witness :
  ∃ command,
    (execute (H := sample.helpers) (R := sample.runtime)
       (add_env_arg "DISTRONODE_FORCE_COLOR" (VStr "")
          (bake (H := sample.helpers) sample.converge)) None).1.2
    = [SanityChecks;
       RunCommand command
         (<["DISTRONODE_FORCE_COLOR" := VStr ""]>
            (_env (bake (H := sample.helpers) sample.converge)))
         false "/scenario"].
Proof.
  destruct (add_env_arg_unconditional (H := sample.helpers)
              (R := sample.runtime) "DISTRONODE_FORCE_COLOR" (VStr "")
              (bake (H := sample.helpers) sample.converge))
    as (_ & _ & _ & _ & _ & _ & _ & _ & Hchild).
  destruct (Hchild None) as [command E]; [reflexivity|].
  exists command. exact E.
Defined.

(** C9, a counterexample.  The command is baked, [add_env_arg] then adds a
    variable that was not set, and [execute] hands the changed mapping to the
    child process. *)
Lemma add_env_arg_after_bake :
  is_Some (_distronode_command (bake (H := sample.helpers) sample.converge))
  ∧ _env (bake (H := sample.helpers) sample.converge)
      !! "DISTRONODE_FORCE_COLOR" = None
  ∧ _env sample.late_env !! "DISTRONODE_FORCE_COLOR" = Some (VStr "1")
  ∧ _env sample.late_env ≠ _env (bake (H := sample.helpers) sample.converge)
  ∧ (execute (H := sample.helpers) (R := sample.runtime) sample.late_env None).1.2
    = [SanityChecks;
       RunCommand
         ["distronode-playbook"; "--inventory"; "/tmp/inventory"; "--become";
          "--diff"; "--extra-vars"; "a=1 b=2"; "converge.yml"]
         (<["DISTRONODE_FORCE_COLOR" := VStr "1"]>
            (_env (bake (H := sample.helpers) sample.converge)))
         false "/scenario"].
Proof.
  split; [by eexists|]. split; [reflexivity|]. split; [reflexivity|].
  split.
  - intros E.
    assert (_env sample.late_env !! "DISTRONODE_FORCE_COLOR"
            = _env (bake (H := sample.helpers) sample.converge)
                !! "DISTRONODE_FORCE_COLOR") as E' by (by rewrite E).
    discriminate E'.
  - rewrite (execute_run (H := sample.helpers) (R := sample.runtime)
               sample.late_env None
               ["distronode-playbook"; "--inventory"; "/tmp/inventory";
                "--become"; "--diff"; "--extra-vars"; "a=1 b=2"; "converge.yml"]
               0 "ok" []); [reflexivity..|].
    vm_compute. reflexivity.
Qed.

Lemma bake_inventory_override_witness :
  _cli (bake (H := sample.helpers) sample.converge_own_inventory) !! "inventory"
  = Some (VStr "/tmp/inventory")
  ∧ _cli (bake (H := sample.helpers) sample.converge_no_directory)
    = _cli sample.converge_no_directory.
Proof.
  split.
  - apply (bake_inventory_override (H := sample.helpers)
             sample.converge_own_inventory "converge.yml");
      [reflexivity|discriminate|reflexivity].
  - apply (bake_inventory_override (H := sample.helpers)
             sample.converge_no_directory "converge.yml");
      [reflexivity|discriminate|reflexivity].
Defined.

(** C10, a counterexample.  The inventory directory is the empty string, the
    caller stored [inventory = hosts.ini], and the mapping rendered into the
    command, and the command of the sample helpers, carry that argument. *)
Lemma bake_keeps_caller_inventory :
  truthy (inventory_directory
            (provisioner (_config sample.converge_no_directory))) = false
  ∧ _playbook sample.converge_no_directory = Some "converge.yml"
  ∧ baked_options (H := sample.helpers) sample.converge_no_directory
      !! "inventory" = Some (VStr "hosts.ini")
  ∧ _distronode_command (bake (H := sample.helpers) sample.converge_no_directory)
    = Some ["distronode-playbook"; "--inventory"; "hosts.ini"; "--diff";
            "--extra-vars"; "a=1 b=2"; "converge.yml"].
Proof. repeat split; vm_compute; reflexivity. Qed.

(** * Further properties of the class *)

(** ** Sequences of overrides *)

(** X1. Two calls of [add_cli_arg] for one name: a truthy second value
    replaces the first, a falsy second value leaves the first in place - an
    override cannot be blanked or removed. *)
Theorem add_cli_arg_twice name v1 v2 self :
  add_cli_arg name v2 (add_cli_arg name v1 self)
  = if truthy v2 then add_cli_arg name v2 self else add_cli_arg name v1 self.
Proof.
  unfold add_cli_arg at 1. destruct (truthy v2) eqn:E2; [|done].
  unfold add_cli_arg. rewrite E2. destruct (truthy v1); simpl; [|done].
  by rewrite insert_insert_eq.
Qed.

(** X2. Calls of [add_cli_arg] for different names can be made in either
    order. *)
Theorem add_cli_arg_commute name1 v1 name2 v2 self :
  name1 ≠ name2 →
  add_cli_arg name1 v1 (add_cli_arg name2 v2 self)
  = add_cli_arg name2 v2 (add_cli_arg name1 v1 self).
Proof.
  intros Hne. unfold add_cli_arg.
  destruct (truthy v1) eqn:E1, (truthy v2) eqn:E2; simpl; rewrite ?E1, ?E2; try done.
  simpl. f_equal. by apply insert_insert_ne.
Qed.

(** X3. [add_env_arg] keeps the last value written for a name, the empty
    value included, and writes to different names can be made in either
    order. *)
Theorem add_env_arg_twice name v1 v2 self :
  add_env_arg name v2 (add_env_arg name v1 self) = add_env_arg name v2 self
  ∧ ∀ name' v',
      name ≠ name' →
      add_env_arg name v1 (add_env_arg name' v' self)
      = add_env_arg name' v' (add_env_arg name v1 self).
Proof.
  split.
  - unfold add_env_arg; simpl. by rewrite insert_insert_eq.
  - intros name' v' Hne. unfold add_env_arg; simpl. f_equal.
    by apply insert_insert_ne.
Qed.

(** ** Baking and the overrides *)

Section BakeExtras.

Context `{H : util.Helpers}.

(** With a playbook set, the overrides after [bake] are the overrides after
    the inventory call. *)
Lemma cli_bake self :
  truthy_path (_playbook self) = true →
  _cli (bake self)
  = _cli (add_cli_arg "inventory"
            (inventory_directory (provisioner (_config self))) self).
Proof.
  intros (p & Hp & Hne)%truthy_path_true. by rewrite (bake_set _ _ Hp Hne).
Qed.

Lemma cli_add_cli_arg name v self :
  _cli (add_cli_arg name v self)
  = if truthy v then <[name := v]> (_cli self) else _cli self.
Proof. unfold add_cli_arg. by destruct (truthy v). Qed.

(** [bake] reads the instance through its playbook, configuration and
    overrides only. *)
Lemma bake_ext self1 self2 :
  _playbook self1 = _playbook self2 → _config self1 = _config self2 →
  _env self1 = _env self2 →
  _cli (add_cli_arg "inventory"
          (inventory_directory (provisioner (_config self1))) self1)
  = _cli (add_cli_arg "inventory"
            (inventory_directory (provisioner (_config self2))) self2) →
  truthy_path (_playbook self1) = true →
  bake self1 = bake self2.
Proof.
  intros Ep Ec Ee Ecli (p & Hp & Hne)%truthy_path_true.
  rewrite (bake_set self1 p Hp Hne), (bake_set self2 p) by congruence.
  unfold baked_options, merged_options.
  destruct (add_cli_arg_frame "inventory"
              (inventory_directory (provisioner (_config self1))) self1)
    as (_ & _ & -> & _).
  destruct (add_cli_arg_frame "inventory"
              (inventory_directory (provisioner (_config self2))) self2)
    as (_ & _ & -> & _).
  by rewrite Ecli, Ep, Ec, Ee.
Qed.

(** X4. The environment and the command do not meet before the child process
    is run: [add_env_arg] can be swapped with [add_cli_arg] and with [bake]. *)
Theorem add_env_arg_independent name v self :
  (∀ name' v',
     add_cli_arg name' v' (add_env_arg name v self)
     = add_env_arg name v (add_cli_arg name' v' self))
  ∧ bake (add_env_arg name v self) = add_env_arg name v (bake self).
Proof.
  split.
  - intros name' v'. unfold add_cli_arg, add_env_arg; simpl.
    by destruct (truthy v').
  - destruct (truthy_path (_playbook self)) eqn:E.
    + apply truthy_path_true in E as (p & Hp & Hne).
      rewrite (bake_set (add_env_arg name v self) p Hp Hne),
        (bake_set self p Hp Hne).
      unfold add_env_arg, baked_options, merged_options, add_cli_arg; simpl.
      by destruct (truthy _).
    + rewrite (bake_unset self E). by apply bake_unset.
Qed.

(** X5. An explicit [bake] after a further [add_cli_arg] gives what baking
    once, after the override, gives: the earlier [bake] leaves no trace. *)
Theorem rebake_after_override name v self :
  bake (add_cli_arg name v (bake self)) = bake (add_cli_arg name v self).
Proof.
  destruct (truthy_path (_playbook self)) eqn:E; [|by rewrite (bake_unset self E)].
  destruct (add_cli_arg_frame name v (bake self)) as (_ & Fp & Fc & Fe).
  destruct (add_cli_arg_frame name v self) as (_ & Gp & Gc & Ge).
  destruct (bake_frame self) as (Bp & Bc & Be).
  apply bake_ext; try congruence.
  rewrite Fc, Gc, Bc, !cli_add_cli_arg, (cli_bake _ E), cli_add_cli_arg.
  destruct (truthy (inventory_directory _)), (truthy v); try done.
  - destruct (decide (name = "inventory")) as [->|Hn].
    + by rewrite !insert_insert_eq.
    + by rewrite (insert_insert_ne _ name "inventory"), insert_insert_eq.
  - by rewrite insert_insert_eq.
Qed.

(** X6. For the converge playbook [bake] does not touch the options: the
    mapping rendered into the command is the one the verbosity derivation
    left, a truthy [become] entry included. *)
Theorem bake_converge_keeps_options self playbook :
  _playbook self = Some playbook → playbook ≠ "" →
  playbooks_converge (provisioner (_config self)) = Some playbook →
  baked_options self = (util.verbose_flag (merged_options self)).2
  ∧ _distronode_command (bake self)
    = Some (["distronode-playbook"]
              ++ util.dict2args (util.verbose_flag (merged_options self)).2
              ++ util.bool2args (util.verbose_flag (merged_options self)).1
              ++ extra_args (_config self)
              ++ [playbook])%list.
Proof.
  intros Hp Hne Hc.
  assert (baked_options self = (util.verbose_flag (merged_options self)).2) as E.
  { unfold baked_options, strip_become. rewrite Hp, Hc.
    by rewrite decide_False by (by intros []). }
  split; [exact E|]. by rewrite (bake_set _ _ Hp Hne), E.
Qed.

(** X7. For every action other than [create] and [destroy] - no action at all
    included - the command carries both extra argument lists in full, the
    provisioner's first, between the verbosity tokens and the playbook. *)
Theorem bake_appends_extra_args self playbook :
  _playbook self = Some playbook → playbook ≠ "" →
  action (_config self) ≠ Some "create" →
  action (_config self) ≠ Some "destroy" →
  _distronode_command (bake self)
  = Some (["distronode-playbook"]
            ++ util.dict2args (baked_options self)
            ++ util.bool2args (util.verbose_flag (merged_options self)).1
            ++ provisioner_distronode_args (provisioner (_config self))
            ++ distronode_args (_config self)
            ++ [playbook])%list.
Proof.
  intros Hp Hne Hc Hd. rewrite (bake_set _ _ Hp Hne).
  assert (lifecycle_action (action (_config self)) = false) as Hl.
  { unfold lifecycle_action. destruct (action (_config self)) as [a|]; [|done].
    apply orb_false_iff. split; apply String.eqb_neq; congruence. }
  unfold extra_args. rewrite Hl. simpl. by rewrite <- app_assoc.
Qed.

End BakeExtras.

(** X8. The merged options have three layers: the inventory directory, when
    truthy, decides the [inventory] entry; otherwise an override stored by
    [add_cli_arg] wins; otherwise the option of the context is taken. *)
Theorem merged_options_layers self k :
  merged_options self !! k
  = if bool_decide (k = "inventory")
       && truthy (inventory_directory (provisioner (_config self)))
    then Some (inventory_directory (provisioner (_config self)))
    else match _cli self !! k with
         | Some v => Some v
         | None => options (provisioner (_config self)) !! k
         end.
Proof.
  unfold merged_options. rewrite merge_dicts_lookup.
  destruct (add_cli_arg_frame "inventory"
              (inventory_directory (provisioner (_config self))) self)
    as (_ & _ & -> & _).
  destruct (truthy (inventory_directory _)) eqn:Ed.
  - rewrite add_cli_arg_truthy by done. case_bool_decide as Hk; simpl.
    + subst k. by rewrite lookup_insert_eq.
    + by rewrite lookup_insert_ne.
  - rewrite add_cli_arg_falsy by done. by rewrite andb_false_r.
Qed.

(** ** Runs and the life of an instance *)

Section ExecuteExtras.

Context `{H : util.Helpers} `{R : Runtime}.

(** The instance [execute] leaves behind is the one its first statement
    produced. *)
Lemma execute_state self action_args :
  (execute self action_args).1.1 = ensure_baked self.
Proof.
  destruct (truthy_path (_playbook self)) eqn:Hp.
  - destruct (ensure_baked_command self Hp) as [command Hc].
    destruct (spawn command (_env self) (scenario_path (_config self)))
      as [[rc out] warns] eqn:Hs.
    by rewrite (execute_run _ _ _ _ _ _ Hp Hc Hs).
  - unfold execute. destruct (ensure_baked_frame self) as (-> & _).
    by rewrite Hp.
Qed.

Lemma ensure_baked_idemp self :
  ensure_baked (ensure_baked self) = ensure_baked self.
Proof.
  destruct (truthy_path (_playbook self)) eqn:Hp.
  - destruct (ensure_baked_command self Hp) as [command Hc].
    unfold ensure_baked at 1. by rewrite Hc.
  - by rewrite !(ensure_baked_unset self Hp).
Qed.

(** X9. How a call of [execute] can end.  It returns [None] exactly when no
    playbook is set, so a run that took place never returns [None]; it never
    reaches the child process without a command; and when it ends in a
    process exit the code is not zero and a playbook was set. *)
Theorem execute_outcome_cases self action_args :
  ((execute self action_args).2 = Return None
   ↔ _playbook self = None ∨ _playbook self = Some "")
  ∧ (execute self action_args).2 ≠ Raise
  ∧ ∀ msg code warns,
      (execute self action_args).2 = SysExit msg code warns →
      code ≠ 0 ∧ truthy_path (_playbook self) = true.
Proof.
  destruct (truthy_path (_playbook self)) eqn:Hp.
  - destruct (ensure_baked_command self Hp) as [command Hc].
    destruct (spawn command (_env self) (scenario_path (_config self)))
      as [[rc out] warns] eqn:Hs.
    rewrite (execute_run _ _ _ _ _ _ Hp Hc Hs). simpl.
    split; [|split].
    + rewrite <- truthy_path_false, Hp. by destruct (rc =? 0).
    + by destruct (rc =? 0).
    + intros msg code warns'. destruct (rc =? 0) eqn:Erc; [done|].
      intros [= _ <- _]. split; [|done]. by apply Z.eqb_neq.
  - assert ((execute self action_args).2 = Return None) as ->.
    { unfold execute. rewrite (ensure_baked_unset _ Hp), Hp. reflexivity. }
    split; [|done]. split; [intros _; by apply truthy_path_false|done].
Qed.

(** X10. A second [execute] leaves the instance as the first one left it and
    has the same effects: the same log line, or the sanity checks and a child
    process with the same command, environment, debug flag and working
    directory. *)
Theorem execute_again self action_args action_args' :
  (execute (execute self action_args).1.1 action_args').1.1
  = (execute self action_args).1.1
  ∧ (execute (execute self action_args).1.1 action_args').1.2
    = (execute self action_args).1.2.
Proof.
  rewrite !execute_state, ensure_baked_idemp. split; [done|].
  destruct (ensure_baked_frame self) as (Fp & Fc & Fe).
  destruct (truthy_path (_playbook self)) eqn:Hp.
  - destruct (ensure_baked_command self Hp) as [command Hc].
    destruct (spawn command (_env self) (scenario_path (_config self)))
      as [[rc out] warns] eqn:Hs.
    rewrite (execute_run self _ _ _ _ _ Hp Hc Hs).
    rewrite (execute_run (ensure_baked self) _ command rc out warns);
      rewrite ?ensure_baked_idemp, ?Fp, ?Fc, ?Fe; done.
  - rewrite (ensure_baked_unset _ Hp). done.
Qed.

(** X11. The overrides only grow: no method removes a key from the overrides
    mapping, and [add_env_arg] does not touch it. *)
Theorem overrides_never_removed self name v action_args :
  dom (_cli self) ⊆ dom (_cli (add_cli_arg name v self))
  ∧ dom (_cli self) ⊆ dom (_cli (bake self))
  ∧ dom (_cli self) ⊆ dom (_cli (execute self action_args).1.1)
  ∧ _cli (add_env_arg name v self) = _cli self.
Proof.
  assert (∀ n w s, dom (_cli s) ⊆ dom (_cli (add_cli_arg n w s))) as Ha.
  { intros n w s. rewrite cli_add_cli_arg. destruct (truthy w); [|done].
    rewrite dom_insert. set_solver. }
  assert (∀ s, dom (_cli s) ⊆ dom (_cli (bake s))) as Hb.
  { intros s. destruct (truthy_path (_playbook s)) eqn:Hp.
    - rewrite (cli_bake _ Hp). apply Ha.
    - by rewrite (bake_unset _ Hp). }
  split; [apply Ha|]. split; [apply Hb|]. split; [|done].
  rewrite execute_state. unfold ensure_baked.
  destruct (_distronode_command self); [done|apply Hb].
Qed.

(** X12. [bake] and [execute] write to the overrides at the key [inventory]
    only: every other override is after the call what it was before. *)
Theorem bake_execute_touch_inventory_only self action_args k :
  k ≠ "inventory" →
  _cli (bake self) !! k = _cli self !! k
  ∧ _cli (execute self action_args).1.1 !! k = _cli self !! k.
Proof.
  intros Hk.
  assert (_cli (bake self) !! k = _cli self !! k) as Hb.
  { destruct (truthy_path (_playbook self)) eqn:Hp.
    - rewrite (cli_bake _ Hp), cli_add_cli_arg.
      destruct (truthy _); [|done]. by rewrite lookup_insert_ne.
    - by rewrite (bake_unset _ Hp). }
  split; [exact Hb|]. rewrite execute_state. unfold ensure_baked.
  by destruct (_distronode_command self).
Qed.

(** X13. In every instance a caller can obtain, the playbook and the
    configuration are those given to the constructor, and a stored command
    means that a playbook is set, that the command starts with the executable
    name and that it ends with the playbook path. *)
Theorem reachable_command_shape playbook config verify self :
  reachable playbook config verify self →
  _playbook self = playbook
  ∧ _config self = config
  ∧ ∀ command,
      _distronode_command self = Some command →
      ∃ path,
        playbook = Some path ∧ path ≠ ""
        ∧ head command = Some "distronode-playbook"
        ∧ last command = Some path.
Proof.
  assert (∀ s, (∀ command, _distronode_command s = Some command →
                  ∃ path, _playbook s = Some path ∧ path ≠ ""
                    ∧ head command = Some "distronode-playbook"
                    ∧ last command = Some path) →
               ∀ command, _distronode_command (bake s) = Some command →
                  ∃ path, _playbook s = Some path ∧ path ≠ ""
                    ∧ head command = Some "distronode-playbook"
                    ∧ last command = Some path) as Hbake.
  { intros s IH command. destruct (truthy_path (_playbook s)) eqn:Hp.
    - apply truthy_path_true in Hp as (p & Hp & Hne).
      rewrite (bake_set _ _ Hp Hne). simpl. intros [= <-].
      exists p. split; [done|]. split; [done|]. split; [done|].
      rewrite !app_comm_cons, !app_assoc. apply last_snoc.
    - rewrite (bake_unset _ Hp). apply IH. }
  induction 1 as [|name v self _ IH|name v self _ IH|self _ IH
                  |action_args self _ IH].
  - split; [done|]. split; [done|]. intros command [=].
  - destruct (add_cli_arg_frame name v self) as (-> & -> & -> & _). exact IH.
  - exact IH.
  - destruct (bake_frame self) as (-> & -> & _).
    destruct IH as (Ep & Ec & IH). split; [done|]. split; [done|].
    rewrite <- Ep. apply Hbake. by rewrite Ep.
  - rewrite execute_state.
    destruct (ensure_baked_frame self) as (-> & -> & _).
    destruct IH as (Ep & Ec & IH). split; [done|]. split; [done|].
    unfold ensure_baked. destruct (_distronode_command self) eqn:Ec'.
    + rewrite Ec'. exact IH.
    + rewrite <- Ep. apply Hbake. rewrite Ec'. by intros command [=].
Qed.

(** X14. In every instance a caller can obtain, the overrides hold truthy
    values only, the inventory directory stored by [bake] included. *)
Theorem reachable_overrides_truthy playbook config verify self :
  reachable playbook config verify self →
  ∀ k v, _cli self !! k = Some v → truthy v = true.
Proof.
  assert (∀ n w s, (∀ k v, _cli s !! k = Some v → truthy v = true) →
            ∀ k v, _cli (add_cli_arg n w s) !! k = Some v → truthy v = true)
    as Ha.
  { intros n w s IH k v. rewrite cli_add_cli_arg.
    destruct (truthy w) eqn:Ew; [|apply IH].
    destruct (decide (n = k)) as [->|Hn].
    - rewrite lookup_insert_eq. by intros [= <-].
    - rewrite lookup_insert_ne by done. apply IH. }
  assert (∀ s, (∀ k v, _cli s !! k = Some v → truthy v = true) →
            ∀ k v, _cli (bake s) !! k = Some v → truthy v = true) as Hb.
  { intros s IH. destruct (truthy_path (_playbook s)) eqn:Hp.
    - rewrite (cli_bake _ Hp). by apply Ha.
    - by rewrite (bake_unset _ Hp). }
  induction 1 as [|name v self _ IH|name v self _ IH|self _ IH
                  |action_args self _ IH].
  - intros k v. simpl. by rewrite lookup_empty.
  - by apply Ha.
  - exact IH.
  - by apply Hb.
  - rewrite execute_state. unfold ensure_baked.
    destruct (_distronode_command self); [exact IH|by apply Hb].
Qed.

(** X15. The first [execute] of a new instance with a playbook bakes from the
    configuration alone: the child process gets the command of the
    configuration's options and inventory directory, the environment the
    constructor selected (the verifier's layers in verify mode, the
    provisioner's otherwise), and the scenario path as working directory. *)
Theorem execute_fresh path config verify action_args :
  path ≠ "" →
  let self := __init__ (Some path) config verify in
  (execute self action_args).1.2
  = [SanityChecks;
     RunCommand
       (["distronode-playbook"]
          ++ util.dict2args (baked_options self)
          ++ util.bool2args (util.verbose_flag (merged_options self)).1
          ++ extra_args config
          ++ [path])%list
       (if verify
        then util.merge_dicts (verifier_env config) (config_verifier_env config)
        else provisioner_env (provisioner config))
       (debug config) (scenario_path config)]
  ∧ ∀ k,
      merged_options self !! k
      = if bool_decide (k = "inventory")
           && truthy (inventory_directory (provisioner config))
        then Some (inventory_directory (provisioner config))
        else options (provisioner config) !! k.
Proof.
  intros Hne self. split.
  - assert (truthy_path (_playbook self) = true) as Hp
      by (apply truthy_path_true; by exists path).
    assert (_distronode_command (ensure_baked self)
            = Some (["distronode-playbook"]
                      ++ util.dict2args (baked_options self)
                      ++ util.bool2args (util.verbose_flag (merged_options self)).1
                      ++ extra_args config ++ [path])%list) as Hc.
    { unfold ensure_baked. simpl. by rewrite (bake_set self path eq_refl Hne). }
    destruct (spawn (["distronode-playbook"]
                      ++ util.dict2args (baked_options self)
                      ++ util.bool2args (util.verbose_flag (merged_options self)).1
                      ++ extra_args config ++ [path])%list
                (_env self) (scenario_path (_config self)))
      as [[rc out] warns] eqn:Hs.
    by rewrite (execute_run _ _ _ _ _ _ Hp Hc Hs).
  - intros k. unfold merged_options. rewrite merge_dicts_lookup.
    destruct (add_cli_arg_frame "inventory"
                (inventory_directory (provisioner (_config self))) self)
      as (_ & _ & -> & _).
    rewrite cli_add_cli_arg. simpl.
    destruct (truthy (inventory_directory _)) eqn:Ed.
    + case_bool_decide as Hk; simpl.
      * subst k. by rewrite lookup_insert_eq.
      * by rewrite lookup_insert_ne, lookup_empty.
    + by rewrite andb_false_r, lookup_empty.
Qed.

End ExecuteExtras.

(** ** The further properties at concrete instances *)

Lemma add_cli_arg_commute_witness :
  add_cli_arg "tags" (VStr "web") (add_cli_arg "limit" (VStr "db") sample.converge)
  = add_cli_arg "limit" (VStr "db") (add_cli_arg "tags" (VStr "web") sample.converge).
Proof. apply add_cli_arg_commute. discriminate. Defined.

Lemma add_env_arg_twice_witness :
  add_env_arg "HOME" (VStr "") (add_env_arg "TERM" (VStr "dumb") sample.converge)
  = add_env_arg "TERM" (VStr "dumb") (add_env_arg "HOME" (VStr "") sample.converge).
Proof.
  apply (add_env_arg_twice "HOME" (VStr "") VNone sample.converge). discriminate.
Defined.

Lemma bake_converge_keeps_options_witness :
  baked_options (H := sample.helpers) sample.converge !! "become"
  = Some (VBool true).
Proof.
  destruct (bake_converge_keeps_options (H := sample.helpers) sample.converge
              "converge.yml" eq_refl) as [E _].
  - discriminate.
  - reflexivity.
  - rewrite E. reflexivity.
Defined.

Lemma bake_appends_extra_args_witness :
  _distronode_command (bake (H := sample.helpers) sample.verify)
  = Some ["distronode-playbook"; "--inventory"; "/tmp/inventory"; "--diff";
          "--extra-vars"; "a=1 b=2"; "verify.yml"].
Proof.
  rewrite (bake_appends_extra_args (H := sample.helpers) sample.verify
             "verify.yml" eq_refl).
  - reflexivity.
  - discriminate.
  - discriminate.
  - discriminate.
Defined.

Lemma execute_outcome_cases_witness :
  (2 : Z) ≠ 0 ∧ truthy_path (_playbook sample.failing) = true.
Proof.
  destruct (execute_outcome_cases (H := sample.helpers) (R := sample.runtime)
              sample.failing None) as (_ & _ & Hexit).
  eapply Hexit. vm_compute. reflexivity.
Defined.

Lemma bake_execute_touch_inventory_only_witness :
  _cli (bake (H := sample.helpers) sample.late_override) !! "tags"
  = Some (VStr "db").
Proof.
  destruct (bake_execute_touch_inventory_only (H := sample.helpers)
              (R := sample.runtime) sample.late_override None "tags") as [E _].
  - discriminate.
  - rewrite E. reflexivity.
Defined.

Lemma reachable_command_shape_witness :
  _playbook sample.late_override = Some "converge.yml"
  ∧ _config sample.late_override
    = sample.config_of sample.inventory {[ "become" := VBool true ]}
        (Some "converge").
Proof.
  destruct (reachable_command_shape (H := sample.helpers) (R := sample.runtime)
              (Some "converge.yml")
              (sample.config_of sample.inventory {[ "become" := VBool true ]}
                 (Some "converge"))
              false sample.late_override) as (Ep & Ec & _).
  - apply reach_add_cli_arg, reach_bake, reach_init.
  - by split.
Defined.

Lemma reachable_overrides_truthy_witness :
  truthy (VStr "/tmp/inventory") = true.
Proof.
  apply (reachable_overrides_truthy (H := sample.helpers) (R := sample.runtime)
           (Some "converge.yml")
           (sample.config_of sample.inventory {[ "become" := VBool true ]}
              (Some "converge"))
           false sample.late_override) with (k := "inventory").
  - apply reach_add_cli_arg, reach_bake, reach_init.
  - vm_compute. reflexivity.
Defined.

Lemma execute_fresh_witness :
  merged_options sample.converge !! "inventory" = Some (VStr "/tmp/inventory").
Proof.
  destruct (execute_fresh (H := sample.helpers) (R := sample.runtime)
              "converge.yml"
              (sample.config_of sample.inventory {[ "become" := VBool true ]}
                 (Some "converge"))
              false None) as [_ Hm].
  - discriminate.
  - unfold sample.converge. rewrite Hm. reflexivity.
Defined.
